(** * datalens: the background loader subsystem

    A shallow embedding of [datalens.infra.background]:

    - [loader_context.py]: class [LoaderContext];
    - [loader_worker.py]:  class [LoaderWorker];
    - [loader_runner.py]:  function [run_with_loader].

    Python code becomes functions in a small state-and-exception monad [Py]
    over a [World] that records what the Qt side can observe: the signals the
    worker emitted (oldest first), the tracebacks printed, the [QThread]
    objects created and started, the signal/slot connections, and the calls
    made on the owning thread (dialog methods, caller callbacks). *)

From Stdlib Require Import List String Bool Arith Lia ZArith Floats.
Import ListNotations.
Local Open Scope string_scope.
Local Open Scope list_scope.

(** ** Python values and exceptions *)

Module Py.

(** The exception classes a task may raise.  [SystemExit], [KeyboardInterrupt]
    and [GeneratorExit] derive from [BaseException] only; every other class
    derives from [Exception]. *)
Inductive ExcClass : Type :=
| ValueError | TypeError | RuntimeError | KeyError | OSError
| SystemExit | KeyboardInterrupt | GeneratorExit.

Record PyExc : Type := mkExc { exc_class : ExcClass; exc_msg : string }.

(** [isinstance(exc, Exception)] *)
Definition is_Exception (e : PyExc) : bool :=
  match exc_class e with
  | SystemExit | KeyboardInterrupt | GeneratorExit => false
  | _ => true
  end.

(** Values a task can return ([Any] in the source). An exception is an
    ordinary object too, and may be returned rather than raised. *)
Inductive PyObj : Type :=
| PyNone
| PyBool (b : bool)
| PyInt (z : Z)
| PyFloat (f : float)
| PyStr (s : string)
| PyExcObj (e : PyExc).

(** The four signals of [LoaderWorker] with their payloads:
    [message = Signal(str)], [progress = Signal(float)],
    [finished = Signal(object)], [failed = Signal(Exception)]. *)
Inductive Event : Type :=
| LogMessage (text : string)
| ProgressUpdate (fraction : float)
| Completed (result : PyObj)
| Failed (error : PyExc).

Inductive SignalName : Type :=
| message | progress | finished | failed
| QThread_started (t : nat) | QThread_finished (t : nat).

Definition signal_of (ev : Event) : SignalName :=
  match ev with
  | LogMessage _ => message
  | ProgressUpdate _ => progress
  | Completed _ => finished
  | Failed _ => failed
  end.

Definition is_terminal (ev : Event) : bool :=
  match ev with
  | Completed _ | Failed _ => true
  | _ => false
  end.

(** A caller-supplied callable ([on_result], [on_error]) is opaque: it is
    known by its identity, calling it is recorded, and it is taken to
    return. *)
Definition Callback : Type := string.

(** What a signal can be connected to. *)
Inductive Slot : Type :=
| dialog_append_message
| dialog_set_progress
| handle_result (on_result : option Callback)
| handle_error (on_error : option Callback)
| QThread_quit (t : nat)
| QThread_deleteLater (t : nat)
| worker_run_task.

(** Calls observed on the owning thread. *)
Inductive UiAction : Type :=
| DialogCreated (title : string)
| DialogShow
| DialogAppendMessage (text : string)
| DialogSetProgress (value : float)
| DialogClose
| CallOnResult (cb : Callback) (result : PyObj)
| CallOnError (cb : Callback) (exc : PyExc)
| WorkerDeleteLater
| ThreadQuit (t : nat).

(** Where a [QObject] lives. *)
Inductive ThreadRef : Type :=
| MainThread
| InQThread (t : nat).

Record World : Type := mkWorld {
  emitted : list Event;                        (* worker signals, oldest first *)
  stderr : list PyExc;                         (* traceback.print_exc() *)
  qthreads : list bool;                        (* QThread objects; true once started *)
  connections : list (SignalName * Slot);      (* in connection order *)
  ui : list UiAction                           (* owning-thread calls, oldest first *)
}.

Definition empty_world : World := mkWorld [] [] [] [] [].

(** How a call ends: it returns, it raises, or it never comes back. *)
Inductive Outcome (A : Type) : Type :=
| Returned (a : A)
| Raised (e : PyExc)
| Diverged.
Arguments Returned {A} a.
Arguments Raised {A} e.
Arguments Diverged {A}.

Definition Py (A : Type) : Type := World -> Outcome A * World.

Definition ret {A} (a : A) : Py A := fun w => (Returned a, w).

Definition bind {A B} (c : Py A) (k : A -> Py B) : Py B :=
  fun w =>
    match c w with
    | (Returned a, w') => k a w'
    | (Raised e, w') => (Raised e, w')
    | (Diverged, w') => (Diverged, w')
    end.

Definition raise {A} (e : PyExc) : Py A := fun w => (Raised e, w).

Definition diverge {A} : Py A := fun w => (Diverged, w).

(** [try: body / except Exception as exc: handler exc]: only instances of
    [Exception] are caught. *)
Definition try_except_Exception {A} (body : Py A) (handler : PyExc -> Py A) : Py A :=
  fun w =>
    match body w with
    | (Raised e, w') =>
        if is_Exception e then handler e w' else (Raised e, w')
    | r => r
    end.

Definition modify (f : World -> World) : Py unit := fun w => (Returned tt, f w).

Definition get : Py World := fun w => (Returned w, w).

End Py.
Import Py.

Declare Scope py_scope.
Delimit Scope py_scope with py.
Notation "x <- c ;; k" := (bind c (fun x => k))
  (at level 61, c at next level, right associativity) : py_scope.
Notation "c ;; k" := (bind c (fun _ => k))
  (at level 61, right associativity) : py_scope.
Local Open Scope py_scope.

(** ** loader_context.py *)

Module LoaderContext.

Record t : Type := __init__ {
  _send_message : string -> Py unit;
  _send_progress : option (float -> Py unit)
}.

Definition log (self : t) (text : string) : Py unit :=
  _send_message self text.

Definition set_progress (self : t) (value : float) : Py unit :=
  match _send_progress self with
  | Some send_progress => send_progress value
  | None => ret tt
  end.

End LoaderContext.

(** ** loader_worker.py *)

Module LoaderWorker.

(** [self._task] is a callable on a context; [self._thread] is [None] until
    [start] stores the [QThread] it created.  [lives_in] is the thread
    affinity that [QObject.moveToThread] changes. *)
Record t : Type := mk {
  _task : LoaderContext.t -> Py PyObj;
  _thread : option nat;
  lives_in : ThreadRef
}.

(** [LoaderWorker(task)] *)
Definition __init__ (task : LoaderContext.t -> Py PyObj) : t :=
  mk task None MainThread.

(** [signal.emit(...)]: the emission joins the worker's ordered stream. *)
Definition emit (ev : Event) : Py unit :=
  modify (fun w =>
    mkWorld (emitted w ++ [ev]) (stderr w) (qthreads w) (connections w) (ui w)).

Definition message_emit (msg : string) : Py unit := emit (LogMessage msg).
Definition progress_emit (val : float) : Py unit := emit (ProgressUpdate val).
Definition finished_emit (result : PyObj) : Py unit := emit (Completed result).
Definition failed_emit (exc : PyExc) : Py unit := emit (Failed exc).

(** [signal.connect(slot)] *)
Definition connect (s : SignalName) (slot : Slot) : Py unit :=
  modify (fun w =>
    mkWorld (emitted w) (stderr w) (qthreads w) (connections w ++ [(s, slot)]) (ui w)).

(** [traceback.print_exc()] *)
Definition print_exc (exc : PyExc) : Py unit :=
  modify (fun w =>
    mkWorld (emitted w) (stderr w ++ [exc]) (qthreads w) (connections w) (ui w)).

(** [QThread()]: a new thread object, not yet started. *)
Definition QThread_new : Py nat :=
  fun w =>
    (Returned (List.length (qthreads w)),
     mkWorld (emitted w) (stderr w) (qthreads w ++ [false]) (connections w) (ui w)).

Fixpoint set_nth (n : nat) (l : list bool) : list bool :=
  match l, n with
  | [], _ => []
  | _ :: l', O => true :: l'
  | b :: l', S n' => b :: set_nth n' l'
  end.

(** [thread.start()]: the execution unit begins to run. *)
Definition QThread_start (thread : nat) : Py unit :=
  modify (fun w =>
    mkWorld (emitted w) (stderr w) (set_nth thread (qthreads w)) (connections w) (ui w)).

(** [self.moveToThread(thread)], called on the main thread: Qt moves the
    object only when it lives in the calling thread, and otherwise leaves it
    where it is (a warning, no exception). *)
Definition moveToThread (self : t) (thread : nat) : t :=
  match lives_in self with
  | MainThread => mk (_task self) (_thread self) (InQThread thread)
  | InQThread _ => self
  end.

Definition start (self : t) : Py t :=
  thread <- QThread_new ;;
  let self := mk (_task self) (Some thread) (lives_in self) in
  let self := moveToThread self thread in
  connect (QThread_started thread) worker_run_task ;;
  connect finished (QThread_quit thread) ;;
  connect failed (QThread_quit thread) ;;
  connect (QThread_finished thread) (QThread_deleteLater thread) ;;
  QThread_start thread ;;
  ret self.

(** The context [_run_task] builds: both sinks are lambdas over the
    worker's own signals. *)
Definition make_ctx (self : t) : LoaderContext.t :=
  LoaderContext.__init__
    (fun msg => message_emit msg)
    (Some (fun val => progress_emit val)).

(** The [try] statement of [_run_task]: [Some result] when the task body
    returned, [None] when the handler ran and left through [return]. *)
Definition _run_task (self : t) : Py unit :=
  let ctx := make_ctx self in
  r <- try_except_Exception
         (result <- _task self ctx ;; ret (Some result))
         (fun exc => print_exc exc ;; failed_emit exc ;; ret None) ;;
  match r with
  | Some result => finished_emit result
  | None => ret tt
  end.

End LoaderWorker.

(** ** Task bodies

    A task is caller code: all the subsystem sees of it is the calls it makes
    on its context and how it ends. *)

Inductive Task : Type :=
| Return (result : PyObj)
| Raise (exc : PyExc)
| Hang
| Log (text : string) (rest : Task)
| SetProgress (value : float) (rest : Task).

(** The callable a task body stands for. *)
Fixpoint call_task (body : Task) (ctx : LoaderContext.t) : Py PyObj :=
  match body with
  | Return result => ret result
  | Raise exc => raise exc
  | Hang => diverge
  | Log text rest => LoaderContext.log ctx text ;; call_task rest ctx
  | SetProgress value rest => LoaderContext.set_progress ctx value ;; call_task rest ctx
  end.

(** A single call on a context. *)
Inductive CtxCall : Type :=
| call_log (text : string)
| call_set_progress (value : float).

Definition event_of_call (c : CtxCall) : Event :=
  match c with
  | call_log text => LogMessage text
  | call_set_progress value => ProgressUpdate value
  end.

Definition do_call (ctx : LoaderContext.t) (c : CtxCall) : Py unit :=
  match c with
  | call_log text => LoaderContext.log ctx text
  | call_set_progress value => LoaderContext.set_progress ctx value
  end.

Fixpoint do_calls (ctx : LoaderContext.t) (cs : list CtxCall) : Py unit :=
  match cs with
  | [] => ret tt
  | c :: cs' => do_call ctx c ;; do_calls ctx cs'
  end.

(** The calls a task body makes, in order, and how it ends. *)
Fixpoint calls_of (body : Task) : list CtxCall :=
  match body with
  | Log text rest => call_log text :: calls_of rest
  | SetProgress value rest => call_set_progress value :: calls_of rest
  | _ => []
  end.

Fixpoint ending_of (body : Task) : Outcome PyObj :=
  match body with
  | Return result => Returned result
  | Raise exc => Raised exc
  | Hang => Diverged
  | Log _ rest => ending_of rest
  | SetProgress _ rest => ending_of rest
  end.

(** One invocation of the worker on a fresh stream. *)
Definition run_worker (body : Task) : Outcome unit * World :=
  LoaderWorker._run_task (LoaderWorker.__init__ (call_task body)) empty_world.

Definition events_of (body : Task) : list Event := emitted (snd (run_worker body)).


(** ** loader_dialog.py, as the runner uses it

    The dialog is a presentation collaborator: each method the runner calls
    or connects is recorded as one call on the owning thread. *)

Module LoaderDialog.

Definition record (a : UiAction) : Py unit :=
  modify (fun w =>
    mkWorld (emitted w) (stderr w) (qthreads w) (connections w) (ui w ++ [a])).

Definition __init__ (title : string) : Py unit := record (DialogCreated title).
Definition append_message (text : string) : Py unit := record (DialogAppendMessage text).
Definition set_progress (value : float) : Py unit := record (DialogSetProgress value).
Definition close : Py unit := record DialogClose.
Definition show : Py unit := record DialogShow.

End LoaderDialog.

(** ** loader_runner.py *)

Module loader_runner.

Definition QWidget : Type := nat.

(** [worker.deleteLater()] *)
Definition worker_deleteLater : Py unit := LoaderDialog.record WorkerDeleteLater.

Definition _handle_result (on_result : option Callback) (result : PyObj) : Py unit :=
  LoaderDialog.close ;;
  match on_result with
  | Some cb => LoaderDialog.record (CallOnResult cb result)
  | None => ret tt
  end ;;
  worker_deleteLater.

Definition _handle_error (on_error : option Callback) (exc : PyExc) : Py unit :=
  LoaderDialog.close ;;
  match on_error with
  | Some cb => LoaderDialog.record (CallOnError cb exc)
  | None => ret tt
  end ;;
  worker_deleteLater.

(** The source returns [None]; the worker it built lives on in the closures
    and connections, and is handed back here so that the run can be
    followed. *)
Definition run_with_loader (parent : QWidget) (title : string)
    (task : LoaderContext.t -> Py PyObj)
    (on_result on_error : option Callback) : Py LoaderWorker.t :=
  LoaderDialog.__init__ title ;;
  let worker := LoaderWorker.__init__ task in
  LoaderWorker.connect message dialog_append_message ;;
  try_except_Exception
    (LoaderWorker.connect progress dialog_set_progress)
    (fun _ => ret tt) ;;
  LoaderWorker.connect finished (handle_result on_result) ;;
  LoaderWorker.connect failed (handle_error on_error) ;;
  worker <- LoaderWorker.start worker ;;
  LoaderDialog.show ;;
  ret worker.

End loader_runner.

(** ** Signal delivery

    Qt hands each emission to the slots connected to its signal, in
    connection order, and emissions of one sender reach the owning thread in
    emission order.  The owning thread is inside [run_with_loader] until it
    returns, so nothing is delivered before [dialog.show()]. *)

Definition SignalName_eqb (a b : SignalName) : bool :=
  match a, b with
  | message, message | progress, progress
  | finished, finished | failed, failed => true
  | QThread_started s, QThread_started t => Nat.eqb s t
  | QThread_finished s, QThread_finished t => Nat.eqb s t
  | _, _ => false
  end.

Definition invoke (slot : Slot) (ev : Event) : Py unit :=
  match slot, ev with
  | dialog_append_message, LogMessage text => LoaderDialog.append_message text
  | dialog_set_progress, ProgressUpdate value => LoaderDialog.set_progress value
  | handle_result on_result, Completed result =>
      loader_runner._handle_result on_result result
  | handle_error on_error, Failed exc =>
      loader_runner._handle_error on_error exc
  | QThread_quit t, _ => LoaderDialog.record (ThreadQuit t)
  | _, _ => ret tt
  end.

Fixpoint invoke_all (conns : list (SignalName * Slot)) (ev : Event) : Py unit :=
  match conns with
  | [] => ret tt
  | (s, slot) :: rest =>
      (if SignalName_eqb s (signal_of ev) then invoke slot ev else ret tt) ;;
      invoke_all rest ev
  end.

Definition deliver (ev : Event) : Py unit :=
  w <- get ;; invoke_all (connections w) ev.

Fixpoint deliver_all (evs : list Event) : Py unit :=
  match evs with
  | [] => ret tt
  | ev :: rest => deliver ev ;; deliver_all rest
  end.

(** What runs on the execution unit stays there: however it ends, the
    owning thread goes on. *)
Definition on_worker_thread (c : Py unit) : Py unit :=
  fun w => (Returned tt, snd (c w)).

(** The execution unit of one invocation: [_run_task], then the calls
    [late] made on a context the task kept. *)
Definition worker_side (worker : LoaderWorker.t) (late : list CtxCall) : Py unit :=
  on_worker_thread
    (LoaderWorker._run_task worker ;;
     do_calls (LoaderWorker.make_ctx worker) late).

(** One [run_with_loader] call followed to its end: the set-up on the owning
    thread, the task on the execution unit, the calls [late] made afterwards
    on a context the task kept, and the delivery of everything emitted. *)
Definition run (parent : loader_runner.QWidget) (title : string) (body : Task)
    (on_result on_error : option Callback) (late : list CtxCall) : Py unit :=
  worker <- loader_runner.run_with_loader parent title (call_task body)
              on_result on_error ;;
  worker_side worker late ;;
  w <- get ;;
  deliver_all (emitted w).




(** The terminal signal that belongs to an ending, if any: [except Exception]
    lets an exception outside [Exception] through, and a task that never
    comes back leaves [_run_task] waiting. *)
Definition terminal_events (o : Outcome PyObj) : list Event :=
  match o with
  | Returned result => [Completed result]
  | Raised exc => if is_Exception exc then [Failed exc] else []
  | Diverged => []
  end.

Definition add_events (evs : list Event) (w : World) : World :=
  mkWorld (emitted w ++ evs) (stderr w) (qthreads w) (connections w) (ui w).

Definition add_ui (acts : list UiAction) (w : World) : World :=
  mkWorld (emitted w) (stderr w) (qthreads w) (connections w) (ui w ++ acts).

Definition add_stderr (excs : list PyExc) (w : World) : World :=
  mkWorld (emitted w) (stderr w ++ excs) (qthreads w) (connections w) (ui w).

(** ** Closed forms used in the statements *)

(** How [_run_task] leaves: it returns unless the task never comes back or
    raised outside [Exception]. *)
Definition run_task_outcome (o : Outcome PyObj) : Outcome unit :=
  match o with
  | Returned _ => Returned tt
  | Raised exc => if is_Exception exc then Returned tt else Raised exc
  | Diverged => Diverged
  end.

Definition printed (o : Outcome PyObj) : list PyExc :=
  match o with
  | Raised exc => if is_Exception exc then [exc] else []
  | _ => []
  end.

(** A task that looks at the context it was handed. *)
Definition probe_progress_sink (ctx : LoaderContext.t) : Py PyObj :=
  match LoaderContext._send_progress ctx with
  | Some _ => ret (PyBool true)
  | None => ret (PyBool false)
  end.











(** ** More of the loader subsystem *)


(** The exception a [failed] signal carries. *)
Definition failure_of (ev : Event) : list PyExc :=
  match ev with
  | Failed exc => [exc]
  | _ => []
  end.

Definition is_log (ev : Event) : bool :=
  match ev with
  | LogMessage _ => true
  | _ => false
  end.

(** [LoaderContext(send_message)]: [send_progress] keeps its default,
    [None]. *)
Definition default_ctx (send_message : string -> Py unit) : LoaderContext.t :=
  LoaderContext.__init__ send_message None.

(** ** ui/widgets/core/loader.py

    [SpinnerLoader]: the angle is a Python [int]; [%] with a positive
    modulus is the floor remainder.  Repaint requests ([self.update()]) are
    presentation and are left out. *)

Module SpinnerLoader.

Record t : Type := mk { _angle : Z }.

Definition __init__ : t := mk 0.

Definition _tick (self : t) : t := mk ((_angle self + 5) mod 360).

Fixpoint ticks (n : nat) (self : t) : t :=
  match n with
  | O => self
  | S n' => ticks n' (_tick self)
  end.

End SpinnerLoader.

(** ** ui/widgets/icons/animated/spinner.py

    [DualRingSpinner]: the timer and the animation state.  Colours and
    repaint requests are presentation and are left out.  Python's [%] on
    floats is taken as given; the [0] that [stop] stores in the angles is
    written as the float it equals. *)

Module DualRingSpinner.

Record t : Type := mk {
  _outer_angle : float;
  _inner_angle : float;
  _outer_speed : float;
  _inner_speed : float;
  timer_interval : Z;       (* milliseconds *)
  timer_active : bool
}.

Definition __init__ : t := mk 0 0 180 (-360) 16 false.

Definition start (self : t) : t :=
  if negb (timer_active self)
  then mk (_outer_angle self) (_inner_angle self) (_outer_speed self)
          (_inner_speed self) (timer_interval self) true
  else self.

Definition stop (self : t) : t :=
  let self :=
    if timer_active self
    then mk (_outer_angle self) (_inner_angle self) (_outer_speed self)
            (_inner_speed self) (timer_interval self) false
    else self in
  mk 0 0 (_outer_speed self) (_inner_speed self)
     (timer_interval self) (timer_active self).

Definition set_speed (self : t) (outer inner : option float) : t :=
  let self :=
    match outer with
    | Some o => mk (_outer_angle self) (_inner_angle self) o (_inner_speed self)
                   (timer_interval self) (timer_active self)
    | None => self
    end in
  match inner with
  | Some i => mk (_outer_angle self) (_inner_angle self) (_outer_speed self) i
                 (timer_interval self) (timer_active self)
  | None => self
  end.

Section Timeout.

(** [x % y] on Python floats. *)
Variable py_float_mod : float -> float -> float.

Definition _on_timeout (self : t) : t :=
  let dt := (PrimFloat.of_uint63 (Uint63.of_Z (timer_interval self)) / 1000)%float in
  mk (py_float_mod (_outer_angle self + _outer_speed self * dt)%float 360)
     (py_float_mod (_inner_angle self + _inner_speed self * dt)%float 360)
     (_outer_speed self) (_inner_speed self)
     (timer_interval self) (timer_active self).

(** What can happen to a spinner. *)
Inductive Op : Type :=
| op_start
| op_stop
| op_set_speed (outer inner : option float)
| op_timeout.

Definition step (self : t) (op : Op) : t :=
  match op with
  | op_start => start self
  | op_stop => stop self
  | op_set_speed outer inner => set_speed self outer inner
  | op_timeout => _on_timeout self
  end.

Definition run (ops : list Op) (self : t) : t := fold_left step ops self.

End Timeout.

(** Whether the timer runs after [ops], read off the calls alone. *)
Definition last_start_stop (ops : list Op) (active : bool) : bool :=
  fold_left (fun b op =>
               match op with
               | op_start => true
               | op_stop => false
               | _ => b
               end) ops active.

(** The speeds after [ops], read off the [set_speed] calls alone. *)
Definition last_speeds (ops : list Op) (speeds : float * float) : float * float :=
  fold_left (fun sp op =>
               match op with
               | op_set_speed outer inner =>
                   (match outer with Some o => o | None => fst sp end,
                    match inner with Some i => i | None => snd sp end)
               | _ => sp
               end) ops speeds.

End DualRingSpinner.

(** ** theme/app_theme.py

    [AppTheme]: the seven colours, and how many times [theme_changed] was
    emitted.  A keyword argument that is not passed is [None]. *)

Module AppTheme.

Record t : Type := mk {
  primary_color : string;
  secondary_color : string;
  tertiary_color : string;
  text_color : string;
  confirm_color : string;
  cancel_color : string;
  warning_color : string;
  theme_changed : nat
}.

Record Kwargs : Type := kwargs {
  kw_primary_color : option string;
  kw_secondary_color : option string;
  kw_tertiary_color : option string;
  kw_text_color : option string;
  kw_confirm_color : option string;
  kw_cancel_color : option string;
  kw_warning_color : option string
}.

Definition no_kwargs : Kwargs := kwargs None None None None None None None.

Definition or_else {A} (o : option A) (d : A) : A :=
  match o with
  | Some a => a
  | None => d
  end.

Definition __init__ (kw : Kwargs) : t :=
  mk (or_else (kw_primary_color kw) "#4DA3FF")
     (or_else (kw_secondary_color kw) "#20232A")
     (or_else (kw_tertiary_color kw) "#8B9BCC")
     (or_else (kw_text_color kw) "#FFFFFF")
     (or_else (kw_confirm_color kw) "#4CAF50")
     (or_else (kw_cancel_color kw) "#F44336")
     (or_else (kw_warning_color kw) "#FFC107")
     0.

Definition update (self : t) (kw : Kwargs) : t :=
  mk (or_else (kw_primary_color kw) (primary_color self))
     (or_else (kw_secondary_color kw) (secondary_color self))
     (or_else (kw_tertiary_color kw) (tertiary_color self))
     (or_else (kw_text_color kw) (text_color self))
     (or_else (kw_confirm_color kw) (confirm_color self))
     (or_else (kw_cancel_color kw) (cancel_color self))
     (or_else (kw_warning_color kw) (warning_color self))
     (S (theme_changed self)).

(** The colours of a theme, in the order of the fields. *)
Definition colours (self : t) : list string :=
  [primary_color self; secondary_color self; tertiary_color self; text_color self;
   confirm_color self; cancel_color self; warning_color self].

(** The arguments of [later], and those of [earlier] where [later] has
    none. *)
Definition merge (later earlier : Kwargs) : Kwargs :=
  let pick (f : Kwargs -> option string) :=
    match f later with
    | Some c => Some c
    | None => f earlier
    end in
  kwargs (pick kw_primary_color) (pick kw_secondary_color) (pick kw_tertiary_color)
         (pick kw_text_color) (pick kw_confirm_color) (pick kw_cancel_color)
         (pick kw_warning_color).

End AppTheme.

(** ** ui/widgets/core/styled.py

    [StyledMixin]: plain Python.  The class attributes are the global pill
    defaults ([set_global_pill_style] called on [StyledMixin] itself); an
    instance copies them in [__init__]. *)

Module StyledMixin.

(** The class attributes. *)
Record Class : Type := mkClass {
  _default_pill_radius : Z;
  _default_pill_vpadding : Z;
  _default_pill_hpadding : Z
}.

Definition class_body : Class := mkClass 999 6 14.

Definition set_global_pill_style (cls : Class) (radius vpadding hpadding : Z) : Class :=
  mkClass (Z.max radius 0) (Z.max vpadding 0) (Z.max hpadding 0).

(** What [_resolve_colors] uses of a theme: [theme.settings], which it
    reads and does not use, and [with_alpha_hex] when the theme has that
    attribute. *)
Record Theme : Type := mkTheme {
  settings : nat;
  with_alpha_hex : option (string -> float -> string)
}.

Record t : Type := mk {
  _override_base_bg : option string;
  _override_selected_bg : option string;
  _override_hover_bg : option string;
  _theme : option Theme;
  _pill_radius : Z;
  _pill_vpadding : Z;
  _pill_hpadding : Z
}.

Definition __init__ (cls : Class) : t :=
  mk None None None None
     (_default_pill_radius cls) (_default_pill_vpadding cls) (_default_pill_hpadding cls).

Definition set_pill_radius (self : t) (radius : Z) : t :=
  mk (_override_base_bg self) (_override_selected_bg self) (_override_hover_bg self)
     (_theme self) (Z.max radius 0) (_pill_vpadding self) (_pill_hpadding self).

Definition set_pill_padding (self : t) (vpadding hpadding : Z) : t :=
  mk (_override_base_bg self) (_override_selected_bg self) (_override_hover_bg self)
     (_theme self) (_pill_radius self) (Z.max vpadding 0) (Z.max hpadding 0).

Definition set_base_color (self : t) (hex_color : string) : t :=
  mk (Some hex_color) (_override_selected_bg self) (_override_hover_bg self)
     (_theme self) (_pill_radius self) (_pill_vpadding self) (_pill_hpadding self).

Definition set_selected_color (self : t) (hex_color : string) : t :=
  mk (_override_base_bg self) (Some hex_color) (_override_hover_bg self)
     (_theme self) (_pill_radius self) (_pill_vpadding self) (_pill_hpadding self).

Definition set_hover_color (self : t) (hex_color : string) : t :=
  mk (_override_base_bg self) (_override_selected_bg self) (Some hex_color)
     (_theme self) (_pill_radius self) (_pill_vpadding self) (_pill_hpadding self).

Definition reset_colors_to_theme (self : t) : t :=
  mk None None None
     (_theme self) (_pill_radius self) (_pill_vpadding self) (_pill_hpadding self).

(** The truth value of an [Optional[str]]: [None] and the empty string are
    false. *)
Definition truthy (o : option string) : option string :=
  match o with
  | Some s => if String.eqb s "" then None else Some s
  | None => None
  end.

(** [a or b] *)
Definition py_or (o : option string) (d : string) : string :=
  match truthy o with
  | Some s => s
  | None => d
  end.

(** Returns the instance (its [_theme] is assigned) and the tuple
    [(base_bg, selected_bg, hover_base, hover_selected)]. *)
Definition _resolve_colors (self : t) (theme : Theme)
    (default_base default_selected : string) : t * (string * string * string * string) :=
  let self :=
    mk (_override_base_bg self) (_override_selected_bg self) (_override_hover_bg self)
       (Some theme) (_pill_radius self) (_pill_vpadding self) (_pill_hpadding self) in
  let base_bg := py_or (_override_base_bg self) default_base in
  let selected_bg := py_or (_override_selected_bg self) default_selected in
  match truthy (_override_hover_bg self) with
  | Some hover => (self, (base_bg, selected_bg, hover, hover))
  | None =>
      match with_alpha_hex theme with
      | Some f => (self, (base_bg, selected_bg, f base_bg 0.9%float, f selected_bg 0.9%float))
      | None => (self, (base_bg, selected_bg, base_bg, selected_bg))
      end
  end.

(** The calls that change the pill shape of an instance. *)
Inductive PillOp : Type :=
| op_set_pill_radius (radius : Z)
| op_set_pill_padding (vpadding hpadding : Z).

Definition pill_step (self : t) (op : PillOp) : t :=
  match op with
  | op_set_pill_radius r => set_pill_radius self r
  | op_set_pill_padding v h => set_pill_padding self v h
  end.

(** A pill shape with nothing negative. *)
Definition pill_ok (r v h : Z) : Prop := (0 <= r /\ 0 <= v /\ 0 <= h)%Z.

(** The hover colour of a control that has no hover override. *)
Definition theme_hover (theme : Theme) (c : string) : string :=
  match with_alpha_hex theme with
  | Some f => f c 0.9%float
  | None => c
  end.

End StyledMixin.

(** ** domain/annotations/core.py, boxes.py, polygons.py

    An annotation is an instance of [AnnotationBase] or of one of its
    subclasses; an instance of [SuggestedAnnotation], the subclass of
    [BoxAnnotation], is a [BoxAnnotation] too.  [tags] returns a set: a list
    without repeats, whose order means nothing. *)

Module AnnotationSet.

Inductive AnnotationType : Type := BOX | POLYGON | SUGGESTED.

Record NormalizedBox : Type := mkBox { cx : float; cy : float; width : float; height : float }.

Record NormalizedPoint : Type := mkPoint { x : float; y : float }.

Record AnnotationBase : Type := mkBase {
  id : Z;
  media_id : Z;
  tag : string;
  annotation_type : AnnotationType
}.

Inductive Annotation : Type :=
| base_instance (b : AnnotationBase)
| box_instance (b : AnnotationBase) (box : NormalizedBox) (score : option float)
| polygon_instance (b : AnnotationBase) (points : list NormalizedPoint)
| suggested_instance (b : AnnotationBase) (box : NormalizedBox) (score : option float).

Definition base_of (a : Annotation) : AnnotationBase :=
  match a with
  | base_instance b | box_instance b _ _
  | polygon_instance b _ | suggested_instance b _ _ => b
  end.



(** [isinstance(a, BoxAnnotation)] *)
Definition isinstance_BoxAnnotation (a : Annotation) : bool :=
  match a with
  | box_instance _ _ _ | suggested_instance _ _ _ => true
  | _ => false
  end.

(** [isinstance(a, PolygonAnnotation)] *)
Definition isinstance_PolygonAnnotation (a : Annotation) : bool :=
  match a with
  | polygon_instance _ _ => true
  | _ => false
  end.

Record t : Type := mk { set_media_id : Z; annotations : list Annotation }.

Definition boxes (self : t) : list Annotation :=
  filter isinstance_BoxAnnotation (annotations self).

Definition polygons (self : t) : list Annotation :=
  filter isinstance_PolygonAnnotation (annotations self).

Definition tags (self : t) : list string :=
  nodup string_dec (map (fun a => tag (base_of a)) (annotations self)).

Definition empty (media_id : Z) : t := mk media_id [].

End AnnotationSet.

(** * Properties *)

(** ** Bookkeeping on worlds *)

Lemma add_events_nil w : add_events [] w = w.
Proof. destruct w; unfold add_events; simpl; now rewrite app_nil_r. Qed.

Lemma add_events_app evs1 evs2 w :
  add_events evs2 (add_events evs1 w) = add_events (evs1 ++ evs2) w.
Proof. unfold add_events; simpl; now rewrite app_assoc. Qed.



Lemma emit_spec ev w : LoaderWorker.emit ev w = (Returned tt, add_events [ev] w).
Proof. reflexivity. Qed.

Lemma record_spec a w : LoaderDialog.record a w = (Returned tt, add_ui [a] w).
Proof. reflexivity. Qed.

(** ** The context the worker builds *)

Lemma log_make_ctx self text w :
  LoaderContext.log (LoaderWorker.make_ctx self) text w
  = (Returned tt, add_events [LogMessage text] w).
Proof. reflexivity. Qed.

Lemma set_progress_make_ctx self value w :
  LoaderContext.set_progress (LoaderWorker.make_ctx self) value w
  = (Returned tt, add_events [ProgressUpdate value] w).
Proof. reflexivity. Qed.



(** A task body on the worker's context: every call is one emission, in
    call order, and the body ends as [ending_of] says. *)
Lemma call_task_make_ctx self body : forall w,
  call_task body (LoaderWorker.make_ctx self) w
  = (ending_of body, add_events (map event_of_call (calls_of body)) w).
Proof.
  induction body as [r|e| |text rest IH|value rest IH]; intros w;
    cbn [call_task calls_of ending_of map];
    try (unfold ret, raise, diverge; now rewrite add_events_nil).
  - unfold bind. rewrite log_make_ctx, IH, add_events_app. reflexivity.
  - unfold bind. rewrite set_progress_make_ctx, IH, add_events_app. reflexivity.
Qed.

Lemma add_stderr_nil w : add_stderr [] w = w.
Proof. destruct w; unfold add_stderr; simpl; now rewrite app_nil_r. Qed.

Lemma run_task_spec self body w :
  LoaderWorker._task self = call_task body ->
  LoaderWorker._run_task self w
  = (run_task_outcome (ending_of body),
     add_events (terminal_events (ending_of body))
       (add_stderr (printed (ending_of body))
          (add_events (map event_of_call (calls_of body)) w))).
Proof.
  intros Htask. unfold LoaderWorker._run_task, bind, try_except_Exception.
  rewrite Htask, call_task_make_ctx.
  destruct (ending_of body) as [r|e|]; simpl.
  - now rewrite add_stderr_nil.
  - destruct (is_Exception e); simpl.
    + reflexivity.
    + now rewrite add_stderr_nil, add_events_nil.
  - now rewrite add_stderr_nil, add_events_nil.
Qed.

Lemma events_of_spec body :
  events_of body = map event_of_call (calls_of body) ++ terminal_events (ending_of body).
Proof.
  unfold events_of, run_worker.
  rewrite (run_task_spec _ body) by reflexivity. reflexivity.
Qed.

Lemma run_worker_outcome body :
  fst (run_worker body) = run_task_outcome (ending_of body).
Proof.
  unfold run_worker. rewrite (run_task_spec _ body) by reflexivity. reflexivity.
Qed.

Lemma calls_not_terminal cs :
  Forall (fun ev => is_terminal ev = false) (map event_of_call cs).
Proof. induction cs as [|[t|v] cs IH]; constructor; auto. Qed.

Lemma filter_calls_terminal cs :
  filter is_terminal (map event_of_call cs) = [].
Proof. induction cs as [|[t|v] cs IH]; simpl; auto. Qed.

(** In a stream made of log/progress events and one closing event, a
    terminal event can only sit at the end. *)
Lemma terminal_sits_last l t : forall pre t' post,
  Forall (fun ev => is_terminal ev = false) l ->
  is_terminal t' = true ->
  l ++ [t] = pre ++ t' :: post ->
  pre = l /\ t' = t /\ post = [].
Proof.
  induction l as [|x l IH]; intros pre t' post Hl Ht' Heq.
  - destruct pre as [|a pre]; simpl in Heq.
    + injection Heq as -> <-. auto.
    + injection Heq as _ Heq. destruct pre; discriminate.
  - inversion Hl as [|? ? Hx Hl']; subst.
    destruct pre as [|a pre]; simpl in Heq.
    + injection Heq as -> _. congruence.
    + injection Heq as -> Heq.
      destruct (IH _ _ _ Hl' Ht' Heq) as (-> & -> & ->). auto.
Qed.

(** ** The worker: terminal events *)

(** Scenario A of the specification. *)
Example scenario_A :
  events_of (Log "step1" (Log "step2" (Return (PyInt 42))))
  = [LogMessage "step1"; LogMessage "step2"; Completed (PyInt 42)].
Proof. reflexivity. Qed.

(** C1. A task that returns normally with value [r]: [_run_task] returns,
    the stream of the invocation is the task's own log/progress events
    followed by [Completed r], so there is exactly one terminal event, it
    carries [r], and nothing follows it. *)
Theorem run_task_completed body r :
  ending_of body = Returned r ->
  fst (run_worker body) = Returned tt /\
  events_of body = map event_of_call (calls_of body) ++ [Completed r] /\
  filter is_terminal (events_of body) = [Completed r] /\
  (forall pre post, events_of body = pre ++ Completed r :: post -> post = []).
Proof.
  intros Hend.
  assert (Hev : events_of body = map event_of_call (calls_of body) ++ [Completed r])
    by (rewrite events_of_spec, Hend; reflexivity).
  repeat split.
  - rewrite run_worker_outcome, Hend. reflexivity.
  - exact Hev.
  - rewrite Hev, filter_app, filter_calls_terminal. reflexivity.
  - intros pre post Heq. rewrite Hev in Heq.
    apply terminal_sits_last in Heq; auto using calls_not_terminal.
    tauto.
Qed.

Lemma run_task_completed_witness :
  ending_of (Log "step1" (Log "step2" (Return (PyInt 42)))) = Returned (PyInt 42) /\
  events_of (Log "step1" (Log "step2" (Return (PyInt 42))))
  = [LogMessage "step1"; LogMessage "step2"] ++ [Completed (PyInt 42)].
Proof.
  split; [reflexivity|].
  apply (run_task_completed (Log "step1" (Log "step2" (Return (PyInt 42)))) (PyInt 42)).
  reflexivity.
Defined.

(** C2, as stated, fails: [sys.exit()] in a task raises [SystemExit], which
    [except Exception] does not catch.  The exception leaves [_run_task]
    and no terminal event is emitted. *)
Lemma system_exit_escapes_run_task :
  ending_of (Log "saving" (Raise (mkExc SystemExit "1")))
    = Raised (mkExc SystemExit "1") /\
  fst (run_worker (Log "saving" (Raise (mkExc SystemExit "1"))))
    = Raised (mkExc SystemExit "1") /\
  events_of (Log "saving" (Raise (mkExc SystemExit "1"))) = [LogMessage "saving"].
Proof. repeat split. Qed.

(** C2, amended. A task that raises an instance of [Exception]: [_run_task]
    catches it and returns, prints the traceback, and the stream of the
    invocation is the task's own log/progress events followed by
    [Failed e] with the very exception raised; there is exactly one
    terminal event and it is not [Completed]. *)
Theorem run_task_failed body e :
  ending_of body = Raised e ->
  is_Exception e = true ->
  fst (run_worker body) = Returned tt /\
  events_of body = map event_of_call (calls_of body) ++ [Failed e] /\
  filter is_terminal (events_of body) = [Failed e] /\
  (forall r, ~ In (Completed r) (events_of body)) /\
  stderr (snd (run_worker body)) = [e].
Proof.
  intros Hend Hexc.
  assert (Hev : events_of body = map event_of_call (calls_of body) ++ [Failed e])
    by (rewrite events_of_spec, Hend; simpl; rewrite Hexc; reflexivity).
  assert (Hfil : filter is_terminal (events_of body) = [Failed e])
    by (rewrite Hev, filter_app, filter_calls_terminal; reflexivity).
  repeat split; auto.
  - rewrite run_worker_outcome, Hend. simpl. now rewrite Hexc.
  - intros r Hin.
    assert (Hin' : In (Completed r) (filter is_terminal (events_of body)))
      by (apply filter_In; auto).
    rewrite Hfil in Hin'. destruct Hin' as [Habs|[]]. discriminate.
  - unfold run_worker. rewrite (run_task_spec _ body) by reflexivity.
    rewrite Hend. simpl. now rewrite Hexc.
Qed.

Lemma run_task_failed_witness :
  ending_of (Raise (mkExc RuntimeError "disk full")) = Raised (mkExc RuntimeError "disk full") /\
  is_Exception (mkExc RuntimeError "disk full") = true /\
  events_of (Raise (mkExc RuntimeError "disk full"))
  = map event_of_call [] ++ [Failed (mkExc RuntimeError "disk full")].
Proof.
  split; [reflexivity|]. split; [reflexivity|].
  apply (run_task_failed (Raise (mkExc RuntimeError "disk full"))
           (mkExc RuntimeError "disk full")); reflexivity.
Defined.

(** C8. Scenario B: [progress(0.5)] then [raise ValueError("bad input")]. *)
Theorem scenario_B :
  events_of (SetProgress 0.5 (Raise (mkExc ValueError "bad input")))
  = [ProgressUpdate 0.5; Failed (mkExc ValueError "bad input")].
Proof. reflexivity. Qed.

(** ** The context *)

(** C6. [set_progress] without a progress sink returns normally and changes
    nothing; with a sink it hands the sink the value it was given, whatever
    the value; [log] calls the message sink in every case. *)
Theorem set_progress_optional_log_not send_message :
  (forall value w,
     LoaderContext.set_progress (LoaderContext.__init__ send_message None) value w
     = (Returned tt, w)) /\
  (forall sink value,
     LoaderContext.set_progress (LoaderContext.__init__ send_message (Some sink)) value
     = sink value) /\
  (forall value w,
     LoaderContext.set_progress
       (LoaderContext.__init__ send_message (Some LoaderDialog.set_progress)) value w
     = (Returned tt, add_ui [DialogSetProgress value] w)) /\
  (forall send_progress text,
     LoaderContext.log (LoaderContext.__init__ send_message send_progress) text
     = send_message text).
Proof. repeat split. Qed.

(** Values outside [0, 1] reach the sink as they are. *)
Example set_progress_out_of_range :
  ui (snd (LoaderContext.set_progress
             (LoaderContext.__init__ LoaderDialog.append_message
                (Some LoaderDialog.set_progress))
             (-2.5)%float empty_world))
  = [DialogSetProgress (-2.5)%float] /\
  emitted (snd (LoaderContext.set_progress
                  (LoaderWorker.make_ctx (LoaderWorker.__init__ (call_task Hang)))
                  150%float empty_world))
  = [ProgressUpdate 150%float].
Proof. split; reflexivity. Qed.

(** C9. The context [_run_task] builds has a progress sink: on it
    [set_progress value] emits exactly [ProgressUpdate value], and a task
    that inspects the context it is handed finds the sink there. *)
Theorem worker_context_has_progress_sink self :
  (exists sink,
     LoaderContext._send_progress (LoaderWorker.make_ctx self) = Some sink) /\
  (forall value w,
     LoaderContext.set_progress (LoaderWorker.make_ctx self) value w
     = (Returned tt, add_events [ProgressUpdate value] w)) /\
  (forall thread affinity w,
     LoaderWorker._run_task (LoaderWorker.mk probe_progress_sink thread affinity) w
     = (Returned tt, add_events [Completed (PyBool true)] w)).
Proof.
  split; [eexists; reflexivity|]. split; reflexivity.
Qed.

(** ** The worker: start *)

Lemma set_nth_last l :
  LoaderWorker.set_nth (List.length l) (l ++ [false]) = l ++ [true].
Proof. induction l as [|b l IH]; simpl; [reflexivity|now rewrite IH]. Qed.

(** C4, as stated, fails: the second [start()] on a worker returns normally
    like the first, and a second [QThread] is created and started. *)
Lemma second_start_spawns_second_thread :
  exists self1 w1 self2 w2,
    LoaderWorker.start (LoaderWorker.__init__ (call_task (Return PyNone))) empty_world
      = (Returned self1, w1) /\
    LoaderWorker._thread self1 = Some 0 /\
    qthreads w1 = [true] /\
    LoaderWorker.start self1 w1 = (Returned self2, w2) /\
    LoaderWorker._thread self2 = Some 1 /\
    qthreads w2 = [true; true].
Proof.
  do 4 eexists.
  split; [cbv; reflexivity|]. split; [reflexivity|]. split; [reflexivity|].
  split; [cbv; reflexivity|]. split; reflexivity.
Qed.

(** C4, amended. [start()] has no guard: on every worker, started before or
    not, it returns normally, creates one new [QThread], stores it in
    [_thread] (replacing the one stored before), connects it and starts
    it. *)
Theorem start_has_no_guard self w :
  exists self',
    fst (LoaderWorker.start self w) = Returned self' /\
    LoaderWorker._thread self' = Some (List.length (qthreads w)) /\
    LoaderWorker._task self' = LoaderWorker._task self /\
    qthreads (snd (LoaderWorker.start self w)) = qthreads w ++ [true] /\
    connections (snd (LoaderWorker.start self w))
    = connections w ++
      [(QThread_started (List.length (qthreads w)), worker_run_task);
       (finished, QThread_quit (List.length (qthreads w)));
       (failed, QThread_quit (List.length (qthreads w)));
       (QThread_finished (List.length (qthreads w)),
        QThread_deleteLater (List.length (qthreads w)))].
Proof.
  eexists. split; [reflexivity|].
  repeat split.
  - destruct (LoaderWorker.lives_in self); reflexivity.
  - destruct (LoaderWorker.lives_in self); reflexivity.
  - simpl. apply set_nth_last.
  - simpl. repeat rewrite <- app_assoc. reflexivity.
Qed.

(** ** The runner *)

















(** ** The runner: routing of the terminal event *)









(** * Further properties of the code *)

(** ** The loader subsystem *)


Lemma no_failure_in_calls cs : flat_map failure_of (map event_of_call cs) = [].
Proof. induction cs as [|[t|v] cs IH]; simpl; auto. Qed.


(** X2. The tracebacks printed by an invocation are exactly the exceptions
    of the [Failed] events it emitted: one for a caught exception, none for
    a task that returns, never returns, or raises outside [Exception]. *)
Theorem tracebacks_match_failed_events body :
  stderr (snd (run_worker body)) = flat_map failure_of (events_of body).
Proof.
  rewrite events_of_spec, flat_map_app, no_failure_in_calls.
  unfold run_worker. rewrite (run_task_spec _ body) by reflexivity.
  destruct (ending_of body) as [r|e|]; simpl; try reflexivity.
  destruct (is_Exception e); reflexivity.
Qed.

Lemma log_default_ctx text w :
  LoaderContext.log (default_ctx LoaderWorker.message_emit) text w
  = (Returned tt, add_events [LogMessage text] w).
Proof. reflexivity. Qed.

Lemma set_progress_default_ctx send_message value w :
  LoaderContext.set_progress (default_ctx send_message) value w = (Returned tt, w).
Proof. reflexivity. Qed.

(** X3. On a context built without a progress sink, a task's
    [set_progress] calls leave no trace and do not disturb it: its [log]
    calls reach the message sink, all of them and in call order, and the
    task ends as it would have. *)
Theorem default_context_drops_progress body : forall w,
  call_task body (default_ctx LoaderWorker.message_emit) w
  = (ending_of body,
     add_events (filter is_log (map event_of_call (calls_of body))) w).
Proof.
  induction body as [r|e| |text rest IH|value rest IH]; intros w;
    cbn [call_task calls_of ending_of map filter event_of_call is_log];
    try (unfold ret, raise, diverge; now rewrite add_events_nil).
  - unfold bind. rewrite log_default_ctx, IH, add_events_app. reflexivity.
  - unfold bind. rewrite set_progress_default_ctx, IH. reflexivity.
Qed.

(** ** SpinnerLoader *)

Lemma ticks_angle n : forall a,
  SpinnerLoader._angle (SpinnerLoader.ticks (S n) (SpinnerLoader.mk a))
  = ((a + 5 * Z.of_nat (S n)) mod 360)%Z.
Proof.
  induction n as [|n IH]; intros a.
  - simpl. f_equal.
  - change (SpinnerLoader.ticks (S (S n)) (SpinnerLoader.mk a))
      with (SpinnerLoader.ticks (S n) (SpinnerLoader.mk ((a + 5) mod 360)%Z)).
    rewrite IH, Zplus_mod_idemp_l. f_equal. lia.
Qed.

(** X4. After [n] ticks from construction the angle is [5 n mod 360]: it
    stays in [0, 360) and is always a multiple of 5. *)
Theorem spinner_loader_angle n :
  let angle := SpinnerLoader._angle (SpinnerLoader.ticks n SpinnerLoader.__init__) in
  (angle = (5 * Z.of_nat n) mod 360 /\ 0 <= angle < 360 /\ angle mod 5 = 0)%Z.
Proof.
  cbv zeta.
  assert (H : SpinnerLoader._angle (SpinnerLoader.ticks n SpinnerLoader.__init__)
              = ((5 * Z.of_nat n) mod 360)%Z).
  { destruct n as [|n]; [reflexivity|].
    unfold SpinnerLoader.__init__. rewrite ticks_angle. f_equal. }
  rewrite H. split; [reflexivity|]. split.
  - apply Z.mod_pos_bound. lia.
  - pose proof (Z.div_mod (5 * Z.of_nat n) 360 ltac:(lia)) as Hdm.
    replace ((5 * Z.of_nat n) mod 360)%Z
      with ((Z.of_nat n - 72 * ((5 * Z.of_nat n) / 360)) * 5)%Z by lia.
    apply Z_mod_mult.
Qed.

(** X5. The animation has period 72: seventy-two ticks bring a spinner
    whose angle is in [0, 360) back to where it was. *)
Theorem spinner_loader_period self :
  (0 <= SpinnerLoader._angle self < 360)%Z ->
  SpinnerLoader.ticks 72 self = self.
Proof.
  destruct self as [a]. simpl SpinnerLoader._angle. intros Ha.
  assert (H : SpinnerLoader._angle (SpinnerLoader.ticks 72 (SpinnerLoader.mk a)) = a).
  { rewrite (ticks_angle 71 a).
    replace (a + 5 * Z.of_nat 72)%Z with (a + 1 * 360)%Z by lia.
    rewrite Z_mod_plus_full. apply Z.mod_small. exact Ha. }
  destruct (SpinnerLoader.ticks 72 (SpinnerLoader.mk a)) as [b].
  simpl in H. now subst.
Qed.

Lemma spinner_loader_period_witness :
  (0 <= SpinnerLoader._angle (SpinnerLoader.mk 355) < 360)%Z /\
  SpinnerLoader.ticks 72 (SpinnerLoader.mk 355) = SpinnerLoader.mk 355.
Proof.
  split; [simpl; lia|].
  apply (spinner_loader_period (SpinnerLoader.mk 355)). simpl. lia.
Defined.

(** ** DualRingSpinner *)

(** X6. Whatever is done to a spinner (start, stop, speed changes, timer
    ticks, in any order), its timer runs afterwards exactly when the last
    of the start/stop calls was a start, its speeds are those of the last
    [set_speed] calls, and the timer interval is never changed. *)
Theorem spinner_timer_follows_last_call py_float_mod ops : forall self,
  let self' := DualRingSpinner.run py_float_mod ops self in
  DualRingSpinner.timer_active self'
    = DualRingSpinner.last_start_stop ops (DualRingSpinner.timer_active self) /\
  (DualRingSpinner._outer_speed self', DualRingSpinner._inner_speed self')
    = DualRingSpinner.last_speeds ops
        (DualRingSpinner._outer_speed self, DualRingSpinner._inner_speed self) /\
  DualRingSpinner.timer_interval self' = DualRingSpinner.timer_interval self.
Proof.
  unfold DualRingSpinner.run, DualRingSpinner.last_start_stop,
    DualRingSpinner.last_speeds.
  induction ops as [|op ops IH]; intros self; cbn [fold_left].
  - auto.
  - cbv zeta in IH.
    destruct (IH (DualRingSpinner.step py_float_mod self op)) as (Ht & Hs & Hi).
    rewrite Ht, Hs, Hi. clear IH Ht Hs Hi.
    destruct self as [oa ia os isp ti act].
    destruct op as [| |[o|] [i|]|]; destruct act; simpl; auto.
Qed.

(** X7. [stop] ends every animation the same way: whatever happened
    before, the timer is off and both angles are back at 0, and a [start]
    right after it finds them there. *)
Theorem spinner_stop_resets py_float_mod ops self :
  let stopped := DualRingSpinner.run py_float_mod (ops ++ [DualRingSpinner.op_stop]) self in
  DualRingSpinner.timer_active stopped = false /\
  DualRingSpinner._outer_angle stopped = 0%float /\
  DualRingSpinner._inner_angle stopped = 0%float /\
  DualRingSpinner.start stopped
  = DualRingSpinner.mk 0 0 (DualRingSpinner._outer_speed stopped)
      (DualRingSpinner._inner_speed stopped) (DualRingSpinner.timer_interval stopped) true.
Proof.
  cbv zeta. unfold DualRingSpinner.run. rewrite fold_left_app. cbn [fold_left].
  destruct (fold_left (DualRingSpinner.step py_float_mod) ops self)
    as [oa ia os isp ti act].
  destruct act; simpl; auto.
Qed.

(** ** AppTheme *)

Lemma or_else_merge (later earlier : option string) d :
  AppTheme.or_else (match later with Some c => Some c | None => earlier end) d
  = AppTheme.or_else later (AppTheme.or_else earlier d).
Proof. destruct later; reflexivity. Qed.

(** X8. [update()] with no argument changes no colour, and still emits
    [theme_changed]. *)
Theorem theme_update_nothing self :
  AppTheme.colours (AppTheme.update self AppTheme.no_kwargs) = AppTheme.colours self /\
  AppTheme.theme_changed (AppTheme.update self AppTheme.no_kwargs)
  = S (AppTheme.theme_changed self).
Proof. split; reflexivity. Qed.

(** X9. Two updates in a row leave the colours of one update with the
    arguments of the second and, where it has none, those of the first;
    [theme_changed] is emitted twice. *)
Theorem theme_update_twice self first second :
  AppTheme.colours (AppTheme.update (AppTheme.update self first) second)
  = AppTheme.colours (AppTheme.update self (AppTheme.merge second first)) /\
  AppTheme.theme_changed (AppTheme.update (AppTheme.update self first) second)
  = S (S (AppTheme.theme_changed self)).
Proof.
  split; [|reflexivity].
  unfold AppTheme.colours, AppTheme.update, AppTheme.merge. simpl.
  now rewrite !or_else_merge.
Qed.

(** X10. A theme built with keyword arguments has the colours of the
    default theme updated with the same arguments: construction and update
    agree on every colour, and a colour that is not given is the default
    one. *)
Theorem theme_init_is_default_updated kw :
  AppTheme.colours (AppTheme.__init__ kw)
  = AppTheme.colours (AppTheme.update (AppTheme.__init__ AppTheme.no_kwargs) kw) /\
  AppTheme.colours (AppTheme.__init__ AppTheme.no_kwargs)
  = ["#4DA3FF"; "#20232A"; "#8B9BCC"; "#FFFFFF"; "#4CAF50"; "#F44336"; "#FFC107"] /\
  AppTheme.theme_changed (AppTheme.__init__ kw) = 0.
Proof. repeat split. Qed.

(** ** StyledMixin *)

Lemma global_pill_ok globals : forall cls,
  StyledMixin.pill_ok (StyledMixin._default_pill_radius cls)
          (StyledMixin._default_pill_vpadding cls)
          (StyledMixin._default_pill_hpadding cls) ->
  let cls' := fold_left (fun c '(r, v, h) => StyledMixin.set_global_pill_style c r v h)
                globals cls in
  StyledMixin.pill_ok (StyledMixin._default_pill_radius cls')
          (StyledMixin._default_pill_vpadding cls')
          (StyledMixin._default_pill_hpadding cls').
Proof.
  induction globals as [|[[r v] h] globals IH]; intros cls Hcls; cbn [fold_left].
  - exact Hcls.
  - apply IH. unfold StyledMixin.pill_ok. simpl. lia.
Qed.

Lemma instance_pill_ok ops : forall self,
  StyledMixin.pill_ok (StyledMixin._pill_radius self) (StyledMixin._pill_vpadding self)
          (StyledMixin._pill_hpadding self) ->
  let self' := fold_left StyledMixin.pill_step ops self in
  StyledMixin.pill_ok (StyledMixin._pill_radius self') (StyledMixin._pill_vpadding self')
          (StyledMixin._pill_hpadding self').
Proof.
  induction ops as [|op ops IH]; intros self Hself; cbn [fold_left].
  - exact Hself.
  - apply IH. unfold StyledMixin.pill_ok in *. destruct op; simpl; lia.
Qed.

(** X11. The pill shape of a control is never negative: whatever global
    styles were set before it was built, and whatever radius and paddings
    it was given afterwards, its radius and both paddings are at least 0. *)
Theorem pill_shape_never_negative globals ops :
  let cls := fold_left (fun c '(r, v, h) => StyledMixin.set_global_pill_style c r v h)
               globals StyledMixin.class_body in
  let self := fold_left StyledMixin.pill_step ops (StyledMixin.__init__ cls) in
  (0 <= StyledMixin._pill_radius self /\
   0 <= StyledMixin._pill_vpadding self /\
   0 <= StyledMixin._pill_hpadding self)%Z.
Proof.
  cbv zeta. apply instance_pill_ok. simpl.
  apply (global_pill_ok globals StyledMixin.class_body).
  unfold StyledMixin.pill_ok. simpl. lia.
Qed.

(** X12. After [reset_colors_to_theme] a control resolves to the defaults
    it is given, whatever overrides it had: base and selected are the
    defaults, and the hover colours are those the theme derives from
    them. *)
Theorem reset_then_resolve_gives_defaults self theme default_base default_selected :
  snd (StyledMixin._resolve_colors (StyledMixin.reset_colors_to_theme self) theme
         default_base default_selected)
  = (default_base, default_selected,
     StyledMixin.theme_hover theme default_base,
     StyledMixin.theme_hover theme default_selected).
Proof.
  unfold StyledMixin._resolve_colors, StyledMixin.theme_hover. simpl.
  destruct (StyledMixin.with_alpha_hex theme); reflexivity.
Qed.

(** X13. An override set to the empty string counts as no override:
    setting all three colours to [""] resolves like a reset. *)
Theorem empty_override_is_no_override self theme default_base default_selected :
  snd (StyledMixin._resolve_colors
         (StyledMixin.set_hover_color
            (StyledMixin.set_selected_color (StyledMixin.set_base_color self "") "") "")
         theme default_base default_selected)
  = snd (StyledMixin._resolve_colors (StyledMixin.reset_colors_to_theme self) theme
           default_base default_selected).
Proof.
  unfold StyledMixin._resolve_colors. simpl.
  destruct (StyledMixin.with_alpha_hex theme); reflexivity.
Qed.

(** X14. A hover override wins over the theme: once a non-empty hover
    colour is set, both hover colours are that colour, whatever the theme
    would derive, and the base and selected colours resolve as without
    it. *)
Theorem hover_override_wins self hover theme default_base default_selected :
  hover <> "" ->
  snd (StyledMixin._resolve_colors (StyledMixin.set_hover_color self hover) theme
         default_base default_selected)
  = (StyledMixin.py_or (StyledMixin._override_base_bg self) default_base,
     StyledMixin.py_or (StyledMixin._override_selected_bg self) default_selected,
     hover, hover).
Proof.
  intros Hne. unfold StyledMixin._resolve_colors. simpl.
  destruct (String.eqb_spec hover ""); [contradiction|reflexivity].
Qed.

Lemma hover_override_wins_witness :
  "#333333" <> "" /\
  snd (StyledMixin._resolve_colors
         (StyledMixin.set_hover_color (StyledMixin.__init__ StyledMixin.class_body) "#333333")
         (StyledMixin.mkTheme 0 None) "#10141C" "#00BCD4")
  = ("#10141C", "#00BCD4", "#333333", "#333333").
Proof.
  split; [discriminate|].
  apply (hover_override_wins (StyledMixin.__init__ StyledMixin.class_body) "#333333"
           (StyledMixin.mkTheme 0 None) "#10141C" "#00BCD4").
  discriminate.
Defined.

(** ** AnnotationSet *)

(** X15. [boxes()] and [polygons()] never return the same annotation, and
    together never more annotations than the set holds; a set built by
    [empty] has neither. *)
Theorem boxes_and_polygons_apart self :
  filter AnnotationSet.isinstance_PolygonAnnotation (AnnotationSet.boxes self) = [] /\
  filter AnnotationSet.isinstance_BoxAnnotation (AnnotationSet.polygons self) = [] /\
  List.length (AnnotationSet.boxes self) + List.length (AnnotationSet.polygons self)
    <= List.length (AnnotationSet.annotations self) /\
  (forall media_id,
     AnnotationSet.boxes (AnnotationSet.empty media_id) = [] /\
     AnnotationSet.polygons (AnnotationSet.empty media_id) = []).
Proof.
  unfold AnnotationSet.boxes, AnnotationSet.polygons.
  destruct self as [m l]. simpl.
  repeat split.
  - induction l as [|[b|b bx sc|b pts|b bx sc] l IH]; simpl; auto.
  - induction l as [|[b|b bx sc|b pts|b bx sc] l IH]; simpl; auto.
  - induction l as [|[b|b bx sc|b pts|b bx sc] l IH]; simpl; lia.
Qed.

(** X16. [tags()] is the set of the tags in use: a tag is in it exactly
    when some annotation of the set carries it, no tag is listed twice, and
    the empty set has no tag. *)
Theorem tags_are_the_tags_in_use self :
  (forall t,
     In t (AnnotationSet.tags self) <->
     exists a, In a (AnnotationSet.annotations self) /\
               AnnotationSet.tag (AnnotationSet.base_of a) = t) /\
  NoDup (AnnotationSet.tags self) /\
  (forall media_id, AnnotationSet.tags (AnnotationSet.empty media_id) = []).
Proof.
  unfold AnnotationSet.tags. split; [|split].
  - intros t. rewrite nodup_In, in_map_iff. split.
    + intros (a & Ha & Hin). eauto.
    + intros (a & Hin & Ha). eauto.
  - apply NoDup_nodup.
  - reflexivity.
Qed.

